(** * The storage backend contract of package [storage]
    (schneider.vip/hybridbuffer/storage)

    The package is a single Go file, [interface.go], that declares the
    interface [Backend]; the repository's README repeats that declaration in
    its "Interface" listing and adds two more, [BackendReaderAt] and
    [BackendSeeker].

    The development has these parts.

    - [GoSrc]: the declarations as the files write them (interface
      declarations, method signatures, embedded interfaces), with Go's rule
      for method sets, so that statements about what the package declares
      are statements about the source text.
    - [Contract]: the interfaces as records of state-passing functions, and an
      in-memory backend that instantiates them.
    - [Readme]: the implementation and the factory interface the README shows.
    - [Shelf]: an implementation of [Backend] that keeps several locations. *)

From Stdlib.Strings Require Import Byte.
From stdpp Require Import base list strings numbers.

(** ** Part 1: the declarations of the source *)

Module GoSrc.

#[local] Open Scope string_scope.

(** A Go type expression, as far as the signatures of the source need it. *)
Inductive GoType : Type :=
| TBuiltin (name : string)          (* predeclared: error, int, int64, byte *)
| TLocal (name : string)            (* a type of the package at hand *)
| TQualified (pkg name : string)    (* a type of an imported package *)
| TSlice (elem : GoType).

(** [Name(params) results] inside an interface. *)
Record MethodSpec : Type := {
  m_name : string;
  m_params : list GoType;
  m_results : list GoType
}.

(** An interface body is a list of methods and embedded interfaces. *)
Inductive InterfaceElem : Type :=
| Method (m : MethodSpec)
| Embedded (t : GoType).

(** The kinds of top-level declaration a Go file can hold. *)
Inductive TopLevelDecl : Type :=
| InterfaceDecl (name : string) (body : list InterfaceElem)
| OtherTypeDecl (name : string)
| ConstDecl (name : string)
| VarDecl (name : string)
| FuncDecl (name : string).

Record GoPackage : Type := {
  pkg_name : string;
  pkg_imports : list string;
  pkg_decls : list TopLevelDecl
}.

Definition io_WriteCloser : GoType := TQualified "io" "WriteCloser".
Definition io_ReadCloser : GoType := TQualified "io" "ReadCloser".
Definition io_ReaderAt : GoType := TQualified "io" "ReaderAt".
Definition io_ReadSeeker : GoType := TQualified "io" "ReadSeeker".
Definition error : GoType := TBuiltin "error".

(** [Create() (io.WriteCloser, error)] *)
Definition Create : MethodSpec :=
  {| m_name := "Create"; m_params := []; m_results := [io_WriteCloser; error] |}.

(** [Open() (io.ReadCloser, error)] *)
Definition Open : MethodSpec :=
  {| m_name := "Open"; m_params := []; m_results := [io_ReadCloser; error] |}.

(** [Remove() error] *)
Definition Remove : MethodSpec :=
  {| m_name := "Remove"; m_params := []; m_results := [error] |}.

(** [OpenReaderAt() (io.ReaderAt, error)] *)
Definition OpenReaderAt : MethodSpec :=
  {| m_name := "OpenReaderAt"; m_params := []; m_results := [io_ReaderAt; error] |}.

(** [OpenSeeker() (io.ReadSeeker, error)] *)
Definition OpenSeeker : MethodSpec :=
  {| m_name := "OpenSeeker"; m_params := []; m_results := [io_ReadSeeker; error] |}.

(** [type Backend interface { Create ...; Open ...; Remove ... }] *)
Definition Backend : TopLevelDecl :=
  InterfaceDecl "Backend" [Method Create; Method Open; Method Remove].

(** [type BackendReaderAt interface { Backend; OpenReaderAt ... }] *)
Definition BackendReaderAt : TopLevelDecl :=
  InterfaceDecl "BackendReaderAt" [Embedded (TLocal "Backend"); Method OpenReaderAt].

(** [type BackendSeeker interface { Backend; OpenSeeker ... }] *)
Definition BackendSeeker : TopLevelDecl :=
  InterfaceDecl "BackendSeeker" [Embedded (TLocal "Backend"); Method OpenSeeker].

(** The Go file of the package: [package storage], [import "io"], and the one
    declaration [Backend]. *)
Definition interface_go : GoPackage :=
  {| pkg_name := "storage"; pkg_imports := ["io"]; pkg_decls := [Backend] |}.

(** The "Interface" listing of the README: the same package clause and
    import, and three declarations. *)
Definition readme_listing : GoPackage :=
  {| pkg_name := "storage"; pkg_imports := ["io"];
     pkg_decls := [Backend; BackendReaderAt; BackendSeeker] |}.

(** Package [io] of the Go standard library, which the source imports: the
    interfaces its signatures name and the ones those embed, as the standard
    library declares them. *)
Definition io_package : GoPackage :=
  let bytes := TSlice (TBuiltin "byte") in
  let int := TBuiltin "int" in
  let int64 := TBuiltin "int64" in
  {| pkg_name := "io"; pkg_imports := [];
     pkg_decls := [
       InterfaceDecl "Reader"
         [Method {| m_name := "Read"; m_params := [bytes]; m_results := [int; error] |}];
       InterfaceDecl "Writer"
         [Method {| m_name := "Write"; m_params := [bytes]; m_results := [int; error] |}];
       InterfaceDecl "Closer"
         [Method {| m_name := "Close"; m_params := []; m_results := [error] |}];
       InterfaceDecl "Seeker"
         [Method {| m_name := "Seek"; m_params := [int64; int]; m_results := [int64; error] |}];
       InterfaceDecl "ReaderAt"
         [Method {| m_name := "ReadAt"; m_params := [bytes; int64]; m_results := [int; error] |}];
       InterfaceDecl "ReadCloser" [Embedded (TLocal "Reader"); Embedded (TLocal "Closer")];
       InterfaceDecl "WriteCloser" [Embedded (TLocal "Writer"); Embedded (TLocal "Closer")];
       InterfaceDecl "ReadSeeker" [Embedded (TLocal "Reader"); Embedded (TLocal "Seeker")]
     ] |}.

(** The packages an import of the source resolves in. *)
Definition universe : list GoPackage := [io_package].

Definition decl_name (d : TopLevelDecl) : string :=
  match d with
  | InterfaceDecl n _ | OtherTypeDecl n | ConstDecl n | VarDecl n | FuncDecl n => n
  end.

Definition is_interface (d : TopLevelDecl) : bool :=
  match d with InterfaceDecl _ _ => true | _ => false end.

(** The body of the interface a package declares under a name. *)
Fixpoint find_interface (ds : list TopLevelDecl) (name : string)
  : option (list InterfaceElem) :=
  match ds with
  | [] => None
  | InterfaceDecl n body :: rest =>
      if String.eqb n name then Some body else find_interface rest name
  | _ :: rest => find_interface rest name
  end.

Definition lookup_interface (p : GoPackage) (name : string)
  : option (list InterfaceElem) :=
  find_interface (pkg_decls p) name.

Fixpoint find_package (u : list GoPackage) (name : string) : option GoPackage :=
  match u with
  | [] => None
  | p :: rest => if String.eqb (pkg_name p) name then Some p else find_package rest name
  end.

(** Go's method set of an interface body: its own methods and those of every
    interface it embeds. [fuel] bounds the depth of embedding (Go rejects
    cyclic embedding, so the number of declarations is enough). *)
Fixpoint method_set (fuel : nat) (u : list GoPackage) (p : GoPackage)
    (body : list InterfaceElem) : list MethodSpec :=
  match fuel with
  | 0 => []
  | S fuel' =>
      flat_map (fun e =>
        match e with
        | Method m => [m]
        | Embedded (TLocal n) =>
            match lookup_interface p n with
            | Some b => method_set fuel' u p b
            | None => []
            end
        | Embedded (TQualified q n) =>
            match find_package u q with
            | Some p' =>
                match lookup_interface p' n with
                | Some b => method_set fuel' u p' b
                | None => []
                end
            | None => []
            end
        | Embedded _ => []
        end) body
  end.

Definition embedding_depth : nat := 8.

(** The method set of the interface type [t], read inside package [p] whose
    imports resolve in [u]; [None] when [t] names no declared interface. *)
Definition methods_of (u : list GoPackage) (p : GoPackage) (t : GoType)
  : option (list MethodSpec) :=
  match t with
  | TLocal n =>
      body ← lookup_interface p n; Some (method_set embedding_depth u p body)
  | TQualified q n =>
      p' ← find_package u q;
      body ← lookup_interface p' n; Some (method_set embedding_depth u p' body)
  | _ => None
  end.

Definition method_names (ms : list MethodSpec) : list string := map m_name ms.

(** The handle an operation returns: the first of two results
    [(handle, error)]; an operation that returns only an error returns none. *)
Definition returned_handle (m : MethodSpec) : option GoType :=
  match m_results m with
  | [h; _] => Some h
  | _ => None
  end.

(** Whether the interface type [t] has a method [Close]. *)
Definition provides_close (u : list GoPackage) (p : GoPackage) (t : GoType) : bool :=
  match methods_of u p t with
  | Some ms => existsb (String.eqb "Close") (method_names ms)
  | None => false
  end.

(** The operations of the contract: the methods of every interface the
    package declares, in source order, each once. *)
Definition contract_operations (u : list GoPackage) (p : GoPackage) : list MethodSpec :=
  fold_left (fun acc d =>
    match d with
    | InterfaceDecl _ body =>
        let ms := method_set embedding_depth u p body in
        (acc ++ List.filter
                  (fun m => negb (existsb (String.eqb (m_name m)) (method_names acc))) ms)%list
    | _ => acc
    end) (pkg_decls p) [].

(** Whether the last result of a method is the predeclared [error]. *)
Definition last_result_is_error (m : MethodSpec) : bool :=
  match rev (m_results m) with
  | TBuiltin n :: _ => String.eqb n "error"
  | _ => false
  end.

(** Whether a type is an error type, that is, has the method [Error] of the
    predeclared interface [error]. *)
Definition declares_error_type (u : list GoPackage) (p : GoPackage) (d : TopLevelDecl) : bool :=
  match d with
  | InterfaceDecl _ body =>
      existsb (String.eqb "Error") (method_names (method_set embedding_depth u p body))
  | _ => false
  end.

End GoSrc.

(** ** Part 2: the interfaces as state-passing records, and a backend in memory *)

Module Contract.

(** Modelled from the spec: the kinds of failure of the contract's error
    taxonomy. The package declares none of them: a Go [error] is [nil] or an
    opaque value, here [None] or a kind. *)
Inductive ErrorKind : Type :=
| Unavailable
| NotFound
| NotReady
| PermissionDenied
| ResourceExhausted
| InvalidArgument
| EndOfData.

Definition error : Type := option ErrorKind.

(** The reference point of a seek: [io.SeekStart], [io.SeekCurrent],
    [io.SeekEnd]. *)
Inductive Whence : Type := SeekStart | SeekCurrent | SeekEnd.

(** The interfaces of Go's package [io] that the signatures of the contract
    name. A method becomes a function that threads the state [S] behind the
    handle. [Read] and [ReadAt] take the length of the caller's buffer and
    return the bytes stored in it (Go returns their count). *)
Module io.

Record Writer (S : Type) : Type := { Write : list byte → S → nat * error * S }.
Record Reader (S : Type) : Type := { Read : nat → S → list byte * error * S }.
Record Closer (S : Type) : Type := { Close : S → error * S }.
Record Seeker (S : Type) : Type := { Seek : Z → Whence → S → Z * error * S }.
Record ReaderAt (S : Type) : Type := { ReadAt : nat → Z → S → list byte * error }.

Record WriteCloser (S : Type) : Type :=
  { WriteCloser_Writer : Writer S; WriteCloser_Closer : Closer S }.
Record ReadCloser (S : Type) : Type :=
  { ReadCloser_Reader : Reader S; ReadCloser_Closer : Closer S }.
Record ReadSeeker (S : Type) : Type :=
  { ReadSeeker_Reader : Reader S; ReadSeeker_Seeker : Seeker S }.

Arguments Write {S} _ _ _.
Arguments Read {S} _ _ _.
Arguments Close {S} _ _.
Arguments Seek {S} _ _ _ _.
Arguments ReadAt {S} _ _ _ _.
Arguments WriteCloser_Writer {S} _.
Arguments WriteCloser_Closer {S} _.
Arguments ReadCloser_Reader {S} _.
Arguments ReadCloser_Closer {S} _.
Arguments ReadSeeker_Reader {S} _.
Arguments ReadSeeker_Seeker {S} _.

End io.

(** [type Backend interface] of [interface.go]. [B] is the state of the
    backend instance. The write handle acts on that same state (what is
    written lands in the backend's location); a read handle is its methods
    and a state [R] of its own. *)
Record Backend (B R : Type) : Type := {
  Create : B → option (io.WriteCloser B) * error * B;
  Open : B → option (io.ReadCloser R * R) * error * B;
  Remove : B → error * B
}.

(** [type BackendReaderAt interface] of the README's listing. *)
Record BackendReaderAt (B R A : Type) : Type := {
  BackendReaderAt_Backend : Backend B R;
  OpenReaderAt : B → option (io.ReaderAt A * A) * error * B
}.

(** [type BackendSeeker interface] of the README's listing. *)
Record BackendSeeker (B R K : Type) : Type := {
  BackendSeeker_Backend : Backend B R;
  OpenSeeker : B → option (io.ReadSeeker K * K) * error * B
}.

Arguments Create {B R} _ _.
Arguments Open {B R} _ _.
Arguments Remove {B R} _ _.
Arguments OpenReaderAt {B R A} _ _.
Arguments OpenSeeker {B R K} _ _.
Arguments BackendReaderAt_Backend {B R A} _.
Arguments BackendSeeker_Backend {B R K} _.

(** *** Callers of the contract *)

(** Modelled from the spec: the writing half of the round-trip scenario,
    "Create, write B, close". The pieces are written one after the other; the
    first failure or short write stops the run. *)
Fixpoint write_pieces {S : Type} (w : io.Writer S) (pieces : list (list byte)) (s : S)
  : error * S :=
  match pieces with
  | [] => (None, s)
  | p :: rest =>
      match io.Write w p s with
      | (n, None, s') =>
          if (n =? length p)%nat then write_pieces w rest s' else (Some ResourceExhausted, s')
      | (_, Some e, s') => (Some e, s')
      end
  end.

(** Modelled from the spec: "read-to-end", done as Go's [io.ReadAll] does it:
    ask for [chunk] bytes at a time and collect them until the reader signals
    the end of the data. [None] on any other failure, or when [fuel] rounds
    were not enough. *)
Fixpoint read_all {S : Type} (r : io.Reader S) (chunk fuel : nat) (s : S)
  : option (list byte * S) :=
  match fuel with
  | 0 => None
  | S fuel' =>
      match io.Read r chunk s with
      | (bs, None, s') =>
          match read_all r chunk fuel' s' with
          | Some (rest, s'') => Some (bs ++ rest, s'')
          | None => None
          end
      | (bs, Some EndOfData, s') => Some (bs, s')
      | (_, Some _, _) => None
      end
  end.

(** Modelled from the spec: the round-trip scenario, "Create, write B, close,
    then Open, read-to-end", against any implementation of [Backend]. *)
Definition write_then_read {B R : Type} (bk : Backend B R) (b : B)
    (pieces : list (list byte)) (chunk fuel : nat) : option (list byte) :=
  match Create bk b with
  | (Some w, None, b1) =>
      match write_pieces (io.WriteCloser_Writer w) pieces b1 with
      | (None, b2) =>
          match io.Close (io.WriteCloser_Closer w) b2 with
          | (None, b3) =>
              match Open bk b3 with
              | (Some (r, s), None, _) =>
                  fst <$> read_all (io.ReadCloser_Reader r) chunk fuel s
              | _ => None
              end
          | _ => None
          end
      | _ => None
      end
  | _ => None
  end.

(** *** A backend in memory

    The repository holds no implementation of its interfaces: the backends
    (filesystem, Redis, S3) live in other repositories. [Mem] is the backend
    the contract describes, kept in memory. *)

Module Mem.

(** Modelled from the spec: the implementation behind [Backend] is missing
    from the repository. The one storage location of a backend instance and
    its lifecycle "UNCREATED, WRITING (after Create, before writer close),
    READABLE (after writer close), REMOVED (after Remove, terminal)". *)
Inductive Location : Type :=
| Uncreated
| Writing (buf : list byte)
| Readable (content : list byte)
| Removed.

(** Modelled from the spec: what the contract leaves to the backend and asks
    it to document. [recreate]: a second Create is accepted and overwrites, or
    is rejected. [remove_idempotent]: Remove of a never-created or
    already-removed location succeeds, or fails not-found.
    [create_rejected], [write_rejected]: the error of a rejected Create and of
    a write or close through a handle whose location is not being written. *)
Record Policy : Type := {
  recreate : bool;
  remove_idempotent : bool;
  create_rejected : ErrorKind;
  write_rejected : ErrorKind
}.

(** Modelled from the spec: the state of a sequential or seekable read handle,
    the bytes of the location when it was opened ("the location is assumed
    immutable once created, for read purposes") and a cursor of its own. *)
Record Stream : Type := { content : list byte; pos : nat }.

Section WithPolicy.

Variable pol : Policy.

(** Modelled from the spec: "bytes written in sequence must be observable in
    that same sequence by any subsequent read handle". *)
Definition writer_Write (p : list byte) (l : Location) : nat * error * Location :=
  match l with
  | Writing buf => (length p, None, Writing (buf ++ p))
  | _ => (0, Some (write_rejected pol), l)
  end.

(** Modelled from the spec: closing the write handle makes what was written
    "visible to subsequent opens". *)
Definition writer_Close (l : Location) : error * Location :=
  match l with
  | Writing buf => (None, Readable buf)
  | _ => (Some (write_rejected pol), l)
  end.

Definition writer : io.WriteCloser Location :=
  {| io.WriteCloser_Writer := {| io.Write := writer_Write |};
     io.WriteCloser_Closer := {| io.Close := writer_Close |} |}.

(** Modelled from the spec: a sequential read delivers the next bytes "exactly
    once per byte (no duplication, no gaps)" and "reaches end-of-data exactly
    once total length of B bytes have been read". *)
Definition stream_Read (n : nat) (s : Stream) : list byte * error * Stream :=
  if length (content s) <=? pos s then ([], Some EndOfData, s)
  else
    let bs := take n (drop (pos s) (content s)) in
    (bs, None, {| content := content s; pos := pos s + length bs |}).

(** Modelled from the spec: releasing a read handle; the contract says nothing
    of a handle after its release. *)
Definition stream_Close (s : Stream) : error * Stream := (None, s).

(** The range of Go's [int64], the type of the offset that [Seek] takes and
    of the offset it returns. *)
Definition min_int64 : Z := (- 2 ^ 63)%Z.
Definition max_int64 : Z := (2 ^ 63 - 1)%Z.

(** An [int64] sum wraps around in two's complement. *)
Definition wrap_int64 (z : Z) : Z := ((z + 2 ^ 63) mod 2 ^ 64 - 2 ^ 63)%Z.

(** Modelled from the spec: the offset a seek asks for, "absolute,
    relative-to-current, or relative-to-end", computed in [int64] as the
    signature of [Seek] has it. *)
Definition seek_target (offset : Z) (whence : Whence) (s : Stream) : Z :=
  wrap_int64
    match whence with
    | SeekStart => offset
    | SeekCurrent => Z.of_nat (pos s) + offset
    | SeekEnd => Z.of_nat (length (content s)) + offset
    end.

(** Modelled from the spec: "Seeking beyond the end of stored data is
    permitted and simply yields end-of-data on the next read rather than an
    error; seeking to a negative resulting offset fails with an
    invalid-argument error." *)
Definition stream_Seek (offset : Z) (whence : Whence) (s : Stream) : Z * error * Stream :=
  let t := seek_target offset whence s in
  if (t <? 0)%Z then (0%Z, Some InvalidArgument, s)
  else (t, None, {| content := content s; pos := Z.to_nat t |}).

(** Modelled from the spec: "read n bytes starting at absolute offset o";
    "Reads at or beyond the end of the stored data return an end-of-data
    signal rather than arbitrary bytes; reads with negative or otherwise
    invalid offsets fail with an invalid-argument error." A read that starts
    inside the data and runs over its end returns what is there and the
    end-of-data signal, as Go's [io.ReaderAt] asks. *)
Definition bytes_ReadAt (n : nat) (off : Z) (data : list byte) : list byte * error :=
  if (off <? 0)%Z then ([], Some InvalidArgument)
  else if (Z.of_nat (length data) <=? off)%Z then ([], Some EndOfData)
  else
    let bs := take n (drop (Z.to_nat off) data) in
    (bs, if length bs <? n then Some EndOfData else None).

Definition reader : io.ReadCloser Stream :=
  {| io.ReadCloser_Reader := {| io.Read := stream_Read |};
     io.ReadCloser_Closer := {| io.Close := stream_Close |} |}.

Definition seeker : io.ReadSeeker Stream :=
  {| io.ReadSeeker_Reader := {| io.Read := stream_Read |};
     io.ReadSeeker_Seeker := {| io.Seek := stream_Seek |} |}.

Definition reader_at : io.ReaderAt (list byte) := {| io.ReadAt := bytes_ReadAt |}.

(** Modelled from the spec: "Postcondition on success: a new storage location
    exists in a not-yet-readable state until the returned handle is closed";
    "Create is only valid in UNCREATED (or backend-defined re-entry)". *)
Definition mem_Create (l : Location)
  : option (io.WriteCloser Location) * error * Location :=
  match l with
  | Uncreated => (Some writer, None, Writing [])
  | Writing _ | Readable _ =>
      if recreate pol then (Some writer, None, Writing [])
      else (None, Some (create_rejected pol), l)
  | Removed => (None, Some (create_rejected pol), l)
  end.

(** Modelled from the spec: the precondition shared by Open, OpenReaderAt and
    OpenSeeker, "a location must have been previously created and its write
    handle closed"; otherwise "fails with a not-found or not-ready error", and
    with not-found after Remove. *)
Definition opened {H : Type} (h : list byte → H) (l : Location)
  : option H * error * Location :=
  match l with
  | Readable data => (Some (h data), None, l)
  | Writing _ => (None, Some NotReady, l)
  | Uncreated | Removed => (None, Some NotFound, l)
  end.

Definition mem_Open : Location → option (io.ReadCloser Stream * Stream) * error * Location :=
  opened (fun data => (reader, {| content := data; pos := 0 |})).

Definition mem_OpenReaderAt
  : Location → option (io.ReaderAt (list byte) * list byte) * error * Location :=
  opened (fun data => (reader_at, data)).

Definition mem_OpenSeeker
  : Location → option (io.ReadSeeker Stream * Stream) * error * Location :=
  opened (fun data => (seeker, {| content := data; pos := 0 |})).

(** Modelled from the spec: "Remove is valid in WRITING or READABLE and
    transitions to REMOVED"; on a never-created or already-removed location it
    "may succeed idempotently or fail not-found". *)
Definition mem_Remove (l : Location) : error * Location :=
  match l with
  | Writing _ | Readable _ => (None, Removed)
  | Uncreated | Removed =>
      if remove_idempotent pol then (None, Removed) else (Some NotFound, l)
  end.

Definition backend : Backend Location Stream :=
  {| Create := mem_Create; Open := mem_Open; Remove := mem_Remove |}.

Definition backend_reader_at : BackendReaderAt Location Stream (list byte) :=
  {| BackendReaderAt_Backend := backend; OpenReaderAt := mem_OpenReaderAt |}.

Definition backend_seeker : BackendSeeker Location Stream Stream :=
  {| BackendSeeker_Backend := backend; OpenSeeker := mem_OpenSeeker |}.

(** The location after Create, the writes of [pieces] and the close of the
    write handle, on a fresh backend instance; [None] if a step fails. *)
Definition fully_written (pieces : list (list byte)) : option Location :=
  match Create backend Uncreated with
  | (Some w, None, l1) =>
      match write_pieces (io.WriteCloser_Writer w) pieces l1 with
      | (None, l2) =>
          match io.Close (io.WriteCloser_Closer w) l2 with
          | (None, l3) => Some l3
          | _ => None
          end
      | _ => None
      end
  | _ => None
  end.

End WithPolicy.

(** A backend that rejects a second Create and removes idempotently, and a
    content of three bytes, to run the contract on. *)
Definition strict_policy : Policy :=
  {| recreate := false; remove_idempotent := true;
     create_rejected := PermissionDenied; write_rejected := InvalidArgument |}.

Definition abc : list byte := [x61; x62; x63].

End Mem.

End Contract.

(** ** The examples of the README

    The README shows an implementation, [CustomStorage], whose methods are
    declared on the pointer type, and an interface [StorageFactory] that
    hands out backends. Both live in a [package main] that imports the
    package. *)

Module Readme.

Import GoSrc.
#[local] Open Scope string_scope.

#[global] Instance GoType_eq_dec : EqDecision GoType.
Proof. solve_decision. Defined.

#[global] Instance MethodSpec_eq_dec : EqDecision MethodSpec.
Proof. solve_decision. Defined.

(** The receiver of a method declaration: [func (s T) ...] or
    [func (s *T) ...]. *)
Inductive ReceiverKind : Type := ValueReceiver | PointerReceiver.

(** [func (s *T) Name(params) results { ... }], without its body. *)
Record MethodDecl : Type := {
  md_type : string;
  md_receiver : ReceiverKind;
  md_sig : MethodSpec
}.

(** The methods the README declares on [CustomStorage]:
    [func (s *CustomStorage) Create() (io.WriteCloser, error)],
    [func (s *CustomStorage) Open() (io.ReadCloser, error)],
    [func (s *CustomStorage) Remove() error] and
    [func (s *CustomStorage) OpenReaderAt() (io.ReaderAt, error)]. *)
Definition CustomStorage_methods : list MethodDecl :=
  map (λ m, {| md_type := "CustomStorage"; md_receiver := PointerReceiver; md_sig := m |})
      [Create; Open; Remove; OpenReaderAt].

(** Go's method set of a declared type: the methods with receiver [T] for the
    type [T]; those with receiver [T] or [*T] for the pointer type [*T]. *)
Definition type_method_set (decls : list MethodDecl) (T : string) (pointer : bool)
  : list MethodSpec :=
  map md_sig
    (List.filter
       (λ d, String.eqb (md_type d) T
             && (pointer || match md_receiver d with
                            | ValueReceiver => true
                            | PointerReceiver => false
                            end))
       decls).

(** Go's rule for implementing an interface: the method set [ms] of the type
    holds every method of the interface [iface], with the same signature.
    [false] when [iface] names no declared interface. *)
Definition satisfies (u : list GoPackage) (p : GoPackage) (ms : list MethodSpec)
    (iface : GoType) : bool :=
  match methods_of u p iface with
  | Some ims => forallb (λ m, bool_decide (m ∈ ms)) ims
  | None => false
  end.

(** [CreateBackend() (storage.Backend, error)] *)
Definition CreateBackend : MethodSpec :=
  {| m_name := "CreateBackend"; m_params := [];
     m_results := [TQualified "storage" "Backend"; error] |}.

(** The "Storage Factory Pattern" listing: [package main], its two imports,
    [type StorageFactory interface { CreateBackend() (storage.Backend, error) }]
    and [func main]. *)
Definition factory_listing : GoPackage :=
  {| pkg_name := "main";
     pkg_imports := ["schneider.vip/hybridbuffer"; "schneider.vip/hybridbuffer/storage"];
     pkg_decls := [InterfaceDecl "StorageFactory" [Method CreateBackend]; FuncDecl "main"] |}.

End Readme.

(** ** A backend with several locations

    [Backend] names no location in any signature, and the comment on [Create]
    reads "creates a new storage location". [Shelf] is an implementation of
    the interface that takes the comment at its word: every Create makes a
    location of its own, the instance keeps them all, newest first, and
    Remove takes the newest away. *)

Module Shelf.

Import Contract.











End Shelf.

(** ** Part 3: what the declarations say *)

Section Declarations.

Import GoSrc.
#[local] Open Scope string_scope.

(** C1: [interface.go] declares the interface [Backend] with exactly the
    methods [Create() (io.WriteCloser, error)], [Open() (io.ReadCloser,
    error)] and [Remove() error], and declares neither [BackendReaderAt] nor
    [BackendSeeker]; the README's listing of the same package declares all
    three, the two extensions embedding [Backend] and adding
    [OpenReaderAt() (io.ReaderAt, error)] and [OpenSeeker() (io.ReadSeeker,
    error)]. *)
Theorem extensions_declared_in_readme_only :
  map decl_name (pkg_decls interface_go) = ["Backend"]
  ∧ lookup_interface interface_go "Backend"
    = Some [Method Create; Method Open; Method Remove]
  ∧ methods_of universe interface_go (TLocal "Backend") = Some [Create; Open; Remove]
  ∧ lookup_interface interface_go "BackendReaderAt" = None
  ∧ lookup_interface interface_go "BackendSeeker" = None
  ∧ map decl_name (pkg_decls readme_listing)
    = ["Backend"; "BackendReaderAt"; "BackendSeeker"]
  ∧ lookup_interface readme_listing "Backend" = lookup_interface interface_go "Backend"
  ∧ lookup_interface readme_listing "BackendReaderAt"
    = Some [Embedded (TLocal "Backend"); Method OpenReaderAt]
  ∧ lookup_interface readme_listing "BackendSeeker"
    = Some [Embedded (TLocal "Backend"); Method OpenSeeker]
  ∧ methods_of universe readme_listing (TLocal "BackendReaderAt")
    = Some [Create; Open; Remove; OpenReaderAt]
  ∧ methods_of universe readme_listing (TLocal "BackendSeeker")
    = Some [Create; Open; Remove; OpenSeeker].
Proof. repeat split; reflexivity. Qed.

(** C7, as stated, fails: [OpenReaderAt] is an operation of the contract, the
    handle it returns has type [io.ReaderAt], whose only method is [ReadAt],
    so not every returned handle type provides a close operation. *)
Lemma reader_at_handle_has_no_close :
  OpenReaderAt ∈ contract_operations universe readme_listing
  ∧ returned_handle OpenReaderAt = Some io_ReaderAt
  ∧ method_names <$> methods_of universe readme_listing io_ReaderAt = Some ["ReadAt"]
  ∧ provides_close universe readme_listing io_ReaderAt = false
  ∧ forallb (λ m, from_option (provides_close universe readme_listing) true
                    (returned_handle m))
      (contract_operations universe readme_listing) = false.
Proof.
  split; [| repeat split; reflexivity].
  vm_compute. do 3 right. left.
Qed.

(** C7, amended: the handles of [Create] (io.WriteCloser) and of [Open]
    (io.ReadCloser) provide [Close]; the handle types declared for
    [OpenReaderAt] (io.ReaderAt) and [OpenSeeker] (io.ReadSeeker) do not;
    [Remove] returns no handle. In [interface.go] itself every operation that
    returns a handle returns one with [Close]. *)
Theorem handles_with_close :
  map (λ m, (m_name m, provides_close universe readme_listing <$> returned_handle m))
      (contract_operations universe readme_listing)
  = [("Create", Some true); ("Open", Some true); ("Remove", None);
     ("OpenReaderAt", Some false); ("OpenSeeker", Some false)]
  ∧ method_names <$> methods_of universe readme_listing io_WriteCloser
    = Some ["Write"; "Close"]
  ∧ method_names <$> methods_of universe readme_listing io_ReadCloser
    = Some ["Read"; "Close"]
  ∧ method_names <$> methods_of universe readme_listing io_ReaderAt = Some ["ReadAt"]
  ∧ method_names <$> methods_of universe readme_listing io_ReadSeeker
    = Some ["Read"; "Seek"]
  ∧ forallb (λ m, from_option (provides_close universe interface_go) true
                    (returned_handle m))
      (contract_operations universe interface_go) = true.
Proof. repeat split; reflexivity. Qed.

(** C9: the package declares nothing but interface types (no constant, no
    variable, no function, no other type), none of them an error type, and
    the last result of every operation is the predeclared [error]; the same
    holds of the README's listing. *)
Theorem no_error_definitions :
  Forall (λ p,
    Forall (λ d, is_interface d = true ∧ declares_error_type universe p d = false)
      (pkg_decls p)
    ∧ Forall (λ m, last_result_is_error m = true) (contract_operations universe p)
    ∧ Forall (λ m, Forall (λ t, t = error ∨ ∃ n, t = TQualified "io" n) (m_results m))
        (contract_operations universe p))
    [interface_go; readme_listing].
Proof.
  repeat first
    [ apply Forall_nil_2
    | apply Forall_cons_2
    | split
    | reflexivity
    | (left; reflexivity)
    | (right; eexists; reflexivity) ].
Qed.



End Declarations.

(** ** Part 4: the backend in memory meets the contract *)

Section InMemory.

Import Contract Contract.Mem.

Variable pol : Policy.

(** Writing appends the pieces, in order, to what the location holds. *)
Lemma write_pieces_appends (pieces : list (list byte)) (buf : list byte) :
  write_pieces (io.WriteCloser_Writer (writer pol)) pieces (Writing buf)
  = (None, Writing (buf ++ concat pieces)).
Proof.
  revert buf. induction pieces as [| p rest IH]; intros buf; simpl.
  - by rewrite app_nil_r.
  - rewrite Nat.eqb_refl, IH. by rewrite <- app_assoc.
Qed.

(** Create, write, close on a fresh instance leaves the location readable,
    holding what was written. *)
Lemma fully_written_readable (pieces : list (list byte)) :
  fully_written pol pieces = Some (Readable (concat pieces)).
Proof.
  unfold fully_written. simpl.
  change (write_pieces _ pieces (Writing []))
    with (write_pieces (io.WriteCloser_Writer (writer pol)) pieces (Writing [])).
  by rewrite write_pieces_appends.
Qed.

(** One read and the rest of the data make up the data from the cursor on. *)
Lemma take_then_rest (chunk : nat) (l : list byte) :
  take chunk l ++ drop (length (take chunk l)) l = l.
Proof.
  rewrite length_take. destruct (decide (chunk ≤ length l)) as [Hle | Hgt].
  - rewrite Nat.min_l by done. apply take_drop.
  - rewrite Nat.min_r by lia. rewrite take_ge by lia. rewrite drop_all.
    apply app_nil_r.
Qed.

(** Reading a stream to its end returns the data from its cursor on, when the
    buffer is not empty and the rounds outnumber the bytes that are left. *)
Lemma read_all_stream (chunk fuel : nat) (s : Stream) :
  0 < chunk →
  length (content s) - pos s < fuel →
  fst <$> read_all {| io.Read := stream_Read |} chunk fuel s
  = Some (drop (pos s) (content s)).
Proof.
  intros Hchunk. revert s. induction fuel as [| fuel IH]; intros s Hfuel; [lia |].
  simpl. unfold stream_Read.
  destruct (length (content s) <=? pos s) eqn:Hend.
  - apply Nat.leb_le in Hend. simpl. by rewrite drop_ge.
  - apply Nat.leb_gt in Hend.
    set (bs := take chunk (drop (pos s) (content s))).
    assert (Hbs : 0 < length bs).
    { unfold bs. rewrite length_take, length_drop. lia. }
    specialize (IH {| content := content s; pos := pos s + length bs |}).
    simpl in IH.
    destruct (read_all _ chunk fuel _) as [[rest s''] |] eqn:Hrest;
      simpl in IH |- *.
    + assert (Hr : rest = drop (pos s + length bs) (content s)).
      { assert (Some rest = Some (drop (pos s + length bs) (content s))) as [= ->].
        { apply IH. lia. }
        done. }
      rewrite Hr. f_equal. rewrite <- drop_drop. apply take_then_rest.
    + exfalso. assert (None = Some (drop (pos s + length bs) (content s))).
      { apply IH. lia. }
      done.
Qed.

(** C2: on a fresh backend instance, Create, the writes of the pieces of [B]
    (any split of [B], the empty sequence included), the close of the write
    handle, then Open and a read to the end return exactly [B]: the location
    is readable and holds [B], the read handle starts at offset zero, and the
    reads deliver [B] whatever the size of the read buffer. *)
Theorem write_then_read_roundtrip (B : list byte) (pieces : list (list byte))
    (chunk fuel : nat) :
  concat pieces = B →
  0 < chunk →
  length B < fuel →
  fully_written pol pieces = Some (Readable B)
  ∧ Open (backend pol) (Readable B)
    = (Some (reader, {| content := B; pos := 0 |}), None, Readable B)
  ∧ write_then_read (backend pol) Uncreated pieces chunk fuel = Some B.
Proof.
  intros <- Hchunk Hfuel. split; [apply fully_written_readable |].
  split; [reflexivity |].
  unfold write_then_read. simpl.
  change (write_pieces _ pieces (Writing []))
    with (write_pieces (io.WriteCloser_Writer (writer pol)) pieces (Writing [])).
  rewrite write_pieces_appends. simpl.
  apply (read_all_stream chunk fuel {| content := concat pieces; pos := 0 |});
    simpl; lia.
Qed.

(** An [int64] sum that fits is the sum. *)
Lemma wrap_int64_fits (z : Z) :
  (min_int64 ≤ z ≤ max_int64)%Z → wrap_int64 z = z.
Proof.
  unfold wrap_int64, min_int64, max_int64. intros Hz.
  rewrite Z.mod_small by lia. lia.
Qed.

(** A sum of a cursor or length and an offset that exceeds [int64] comes out
    negative. *)
Lemma wrap_int64_overflows (z : Z) :
  (max_int64 < z ≤ 2 * max_int64)%Z → (wrap_int64 z < 0)%Z.
Proof.
  unfold wrap_int64, max_int64. intros Hz.
  replace (z + 2 ^ 63)%Z with (z - 2 ^ 63 + 1 * 2 ^ 64)%Z by lia.
  rewrite Z.mod_add by lia. rewrite Z.mod_small by lia. lia.
Qed.

(** C4: once [B] is fully written, OpenSeeker returns a handle on [B] at
    offset zero. On such a handle, wherever its cursor stands, a seek asks
    for the offset [t]: [offset] itself from the start, the cursor plus
    [offset] from the current position, [len(B)] plus [offset] from the end.
    When [0 <= t <= len(B)] the seek succeeds, returns [t], and a read to the
    end then returns [B[t:]]; when [t > len(B)] (and [t] is an [int64]) the
    seek succeeds, returns [t], and the next read signals the end of the
    data; when [t < 0], or the [int64] sum overflows and so comes out
    negative, the seek fails with an invalid-argument error and leaves the
    handle as it was. *)
Theorem seek_correct (B : list byte) (pieces : list (list byte)) (s : Stream)
    (offset : Z) (whence : Whence) :
  concat pieces = B →
  content s = B →
  (min_int64 ≤ offset ≤ max_int64)%Z →
  (Z.of_nat (pos s) ≤ max_int64)%Z →
  (Z.of_nat (length B) ≤ max_int64)%Z →
  let t := match whence with
           | SeekStart => offset
           | SeekCurrent => (Z.of_nat (pos s) + offset)%Z
           | SeekEnd => (Z.of_nat (length B) + offset)%Z
           end in
  let s' := {| content := B; pos := Z.to_nat t |} in
  fully_written pol pieces = Some (Readable B)
  ∧ OpenSeeker (backend_seeker pol) (Readable B)
    = (Some (seeker, {| content := B; pos := 0 |}), None, Readable B)
  ∧ ((0 ≤ t ≤ Z.of_nat (length B))%Z →
     io.Seek (io.ReadSeeker_Seeker seeker) offset whence s = (t, None, s')
     ∧ ∀ chunk fuel, 0 < chunk → length B < fuel →
         fst <$> read_all (io.ReadSeeker_Reader seeker) chunk fuel s'
         = Some (drop (Z.to_nat t) B))
  ∧ ((Z.of_nat (length B) < t ≤ max_int64)%Z →
     io.Seek (io.ReadSeeker_Seeker seeker) offset whence s = (t, None, s')
     ∧ ∀ n, io.Read (io.ReadSeeker_Reader seeker) n s' = ([], Some EndOfData, s'))
  ∧ ((t < 0 ∨ max_int64 < t)%Z →
     io.Seek (io.ReadSeeker_Seeker seeker) offset whence s
     = (0%Z, Some InvalidArgument, s)).
Proof.
  intros <- Hs Hoff Hpos Hlen t s'.
  split; [apply fully_written_readable |]. split; [reflexivity |].
  assert (Hmin : (min_int64 ≤ t)%Z).
  { unfold t, min_int64 in *. destruct whence; lia. }
  assert (Hmax : (t ≤ 2 * max_int64)%Z).
  { unfold t, max_int64, min_int64 in *. destruct whence; lia. }
  assert (Htarget : seek_target offset whence s = wrap_int64 t).
  { unfold seek_target, t. rewrite Hs. by destruct whence. }
  simpl. unfold stream_Seek. rewrite Htarget, Hs. fold s'.
  split; [| split].
  - intros [Hlo Hhi]. rewrite wrap_int64_fits by lia.
    destruct (t <? 0)%Z eqn:Hneg; [apply Z.ltb_lt in Hneg; lia |].
    split; [done |]. intros chunk fuel Hchunk Hfuel.
    apply (read_all_stream chunk fuel s'); simpl; lia.
  - intros [Hpast Hfit]. rewrite wrap_int64_fits by lia.
    destruct (t <? 0)%Z eqn:Hneg; [apply Z.ltb_lt in Hneg; lia |].
    split; [done |]. intros n. unfold stream_Read. simpl.
    destruct (length (concat pieces) <=? Z.to_nat t) eqn:Hend; [done |].
    apply Nat.leb_gt in Hend. lia.
  - intros Hbad.
    assert (Hneg : (wrap_int64 t < 0)%Z).
    { destruct Hbad as [Hbad | Hbad].
      - rewrite wrap_int64_fits; [done |]. unfold max_int64. lia.
      - apply wrap_int64_overflows. lia. }
    apply Z.ltb_lt in Hneg. by rewrite Hneg.
Qed.

End InMemory.

(** *** The theorems at a concrete backend and content *)

Section Witnesses.

Import Contract Contract.Mem.

(** Three bytes written as two pieces around an empty write, read back two
    bytes at a time. *)
Lemma write_then_read_roundtrip_witness :
  concat [[x61]; []; [x62; x63]] = abc
  ∧ 0 < 2
  ∧ length abc < 4
  ∧ write_then_read (backend strict_policy) Uncreated [[x61]; []; [x62; x63]] 2 4
    = Some abc.
Proof.
  assert (H1 : concat [[x61]; []; [x62; x63]] = abc) by reflexivity.
  assert (H2 : 0 < 2) by lia.
  assert (H3 : length abc < 4) by (simpl; lia).
  split; [exact H1 |]. split; [exact H2 |]. split; [exact H3 |].
  exact (proj2 (proj2
    (write_then_read_roundtrip strict_policy abc [[x61]; []; [x62; x63]] 2 4 H1 H2 H3))).
Defined.

(** A handle that stands at offset 1 of the three bytes [abc]: a seek by 1
    from the start lands at 1 and the rest is [bc]; by 1 from the cursor lands
    at 2 and the rest is [c]; by 1 from the end lands at 4 and the next read
    signals the end of the data; to -1 from the start fails. *)
Lemma seek_correct_witness :
  let s := {| content := abc; pos := 1 |} in
  let sk := io.ReadSeeker_Seeker seeker in
  let rd := io.ReadSeeker_Reader seeker in
  concat [[x61]; []; [x62; x63]] = abc
  ∧ (io.Seek sk 1 SeekStart s = (1%Z, None, {| content := abc; pos := 1 |})
     ∧ fst <$> read_all rd 1 4 {| content := abc; pos := 1 |} = Some [x62; x63])
  ∧ (io.Seek sk 1 SeekCurrent s = (2%Z, None, {| content := abc; pos := 2 |})
     ∧ fst <$> read_all rd 1 4 {| content := abc; pos := 2 |} = Some [x63])
  ∧ (io.Seek sk 1 SeekEnd s = (4%Z, None, {| content := abc; pos := 4 |})
     ∧ io.Read rd 2 {| content := abc; pos := 4 |}
       = ([], Some EndOfData, {| content := abc; pos := 4 |}))
  ∧ io.Seek sk (-1) SeekStart s = (0%Z, Some InvalidArgument, s).
Proof.
  intros s sk rd.
  assert (H1 : concat [[x61]; []; [x62; x63]] = abc) by reflexivity.
  assert (Hpos : (Z.of_nat (pos s) ≤ max_int64)%Z) by (by vm_compute).
  assert (Hlen : (Z.of_nat (length abc) ≤ max_int64)%Z) by (by vm_compute).
  assert (Hone : (min_int64 ≤ 1 ≤ max_int64)%Z) by (split; by vm_compute).
  assert (Hneg : (min_int64 ≤ -1 ≤ max_int64)%Z) by (split; by vm_compute).
  assert (Hchunk : 0 < 1) by lia.
  assert (Hfuel : length abc < 4) by (simpl; lia).
  pose proof (seek_correct strict_policy abc [[x61]; []; [x62; x63]] s
                1 SeekStart H1 eq_refl Hone Hpos Hlen) as (_ & _ & Hstart & _ & _).
  pose proof (seek_correct strict_policy abc [[x61]; []; [x62; x63]] s
                1 SeekCurrent H1 eq_refl Hone Hpos Hlen) as (_ & _ & Hcur & _ & _).
  pose proof (seek_correct strict_policy abc [[x61]; []; [x62; x63]] s
                1 SeekEnd H1 eq_refl Hone Hpos Hlen) as (_ & _ & _ & Hend & _).
  pose proof (seek_correct strict_policy abc [[x61]; []; [x62; x63]] s
                (-1) SeekStart H1 eq_refl Hneg Hpos Hlen) as (_ & _ & _ & _ & Hbad).
  split; [exact H1 |].
  split.
  { destruct Hstart as [Hseek Hread]; [simpl; lia |].
    split; [exact Hseek | exact (Hread 1 4 Hchunk Hfuel)]. }
  split.
  { destruct Hcur as [Hseek Hread]; [simpl; lia |].
    split; [exact Hseek | exact (Hread 1 4 Hchunk Hfuel)]. }
  split.
  { destruct Hend as [Hseek Hread]; [split; [simpl; lia | by vm_compute] |].
    split; [exact Hseek | exact (Hread 2)]. }
  apply Hbad. left. simpl. lia.
Defined.

End Witnesses.

(** ** Part 5: the examples of the README against the declarations *)

Section ReadmeExamples.

Import GoSrc Readme.
#[local] Open Scope string_scope.

(** X1: a type implements an extension interface exactly when it implements
    [Backend] and has the one operation the extension adds; and [Backend] asks
    the same of a type in [interface.go] and in the README's listing. *)
Theorem extension_is_base_plus_operation (ms : list MethodSpec) :
  satisfies universe readme_listing ms (TLocal "BackendReaderAt")
  = satisfies universe readme_listing ms (TLocal "Backend")
    && bool_decide (OpenReaderAt ∈ ms)
  ∧ satisfies universe readme_listing ms (TLocal "BackendSeeker")
    = satisfies universe readme_listing ms (TLocal "Backend")
      && bool_decide (OpenSeeker ∈ ms)
  ∧ satisfies universe interface_go ms (TLocal "Backend")
    = satisfies universe readme_listing ms (TLocal "Backend").
Proof.
  unfold satisfies.
  change (methods_of universe readme_listing (TLocal "BackendReaderAt"))
    with (Some [Create; Open; Remove; OpenReaderAt]).
  change (methods_of universe readme_listing (TLocal "BackendSeeker"))
    with (Some [Create; Open; Remove; OpenSeeker]).
  change (methods_of universe readme_listing (TLocal "Backend"))
    with (Some [Create; Open; Remove]).
  change (methods_of universe interface_go (TLocal "Backend"))
    with (Some [Create; Open; Remove]).
  simpl. rewrite !andb_true_r.
  repeat split; by rewrite <- !andb_assoc.
Qed.

(** X2: the README's [CustomStorage] declares its four methods on the pointer
    type. So [*CustomStorage] implements [Backend] (as [interface.go] declares
    it) and [BackendReaderAt], but not [BackendSeeker], for want of
    [OpenSeeker]; and the value type [CustomStorage] has an empty method set
    and implements none of the three. *)
Theorem CustomStorage_implements :
  let by_pointer := type_method_set CustomStorage_methods "CustomStorage" true in
  let by_value := type_method_set CustomStorage_methods "CustomStorage" false in
  method_names by_pointer = ["Create"; "Open"; "Remove"; "OpenReaderAt"]
  ∧ satisfies universe interface_go by_pointer (TLocal "Backend") = true
  ∧ satisfies universe readme_listing by_pointer (TLocal "BackendReaderAt") = true
  ∧ satisfies universe readme_listing by_pointer (TLocal "BackendSeeker") = false
  ∧ (OpenSeeker ∉ by_pointer)
  ∧ by_value = []
  ∧ Forall (λ i, satisfies universe readme_listing by_value (TLocal i) = false)
      ["Backend"; "BackendReaderAt"; "BackendSeeker"].
Proof.
  intros by_pointer by_value.
  split; [reflexivity |]. split; [by vm_compute |]. split; [by vm_compute |].
  split; [by vm_compute |]. split.
  - apply (bool_decide_eq_false (OpenSeeker ∈ by_pointer)). by vm_compute.
  - split; [reflexivity |]. repeat constructor.
Qed.

(** X3: what a [StorageFactory] hands out is typed [storage.Backend]: read from
    the importing package, that type asks of an implementation exactly what
    [Backend] asks inside package [storage], whether the package is
    [interface.go] or the README's listing, so the three operations are all a
    caller can use without a type assertion; [CreateBackend] itself takes no
    parameter and returns an [error] last; and the README's [*CustomStorage]
    is a value a factory can return. *)
Theorem factory_returns_plain_backend (ms : list MethodSpec) :
  let product := TQualified "storage" "Backend" in
  methods_of [io_package; interface_go] factory_listing (TLocal "StorageFactory")
  = Some [CreateBackend]
  ∧ m_params CreateBackend = []
  ∧ returned_handle CreateBackend = Some product
  ∧ last_result_is_error CreateBackend = true
  ∧ Forall (λ storage,
      methods_of [io_package; storage] factory_listing product
      = Some [Create; Open; Remove]
      ∧ satisfies [io_package; storage] factory_listing ms product
        = satisfies universe storage ms (TLocal "Backend"))
      [interface_go; readme_listing]
  ∧ satisfies [io_package; interface_go] factory_listing
      (type_method_set CustomStorage_methods "CustomStorage" true) product = true.
Proof.
  intros product. do 4 (split; [reflexivity |]). split.
  - repeat (apply Forall_cons_2 || apply Forall_nil_2); by split.
  - by vm_compute.
Qed.

End ReadmeExamples.
